(** * The basic custom training container notebook

    A shallow embedding of
    [custom-training-continer/notebook/basic_training_container.ipynb]:
    the code cells of the notebook, run top to bottom in one kernel, as a
    program in a small trace-and-exception monad.  What the notebook reaches
    outside itself (the execution role, the boto3 and SageMaker sessions, the
    shell, the training service) is a [world] of oracles, so that every
    statement below holds whatever those collaborators answer.

    Conventions of the embedding:
    - a Python call to a collaborator returns a value or raises; the
      notebook has no try statement of its own, so an exception ends the
      cell it is raised in and, unless a cell magic catches it, the run;
    - a line that starts with [!] is handed to the shell; its exit status
      raises nothing;
    - a cell that opens with [%%time] runs its body inside the magic, which
      catches what the body raises; the timing lines and the traceback the
      magic writes are output of the page and cause no event;
    - the cell that opens with [%%capture] holds one shell line, which
      raises nothing; the magic only keeps its output off the page;
    - [import] statements cause no event;
    - names bound in one cell are passed to the later cells as values. *)

From Stdlib Require Import Floats.PrimFloat Ascii String.
From stdpp Require Import gmap strings list.

Set Warnings "-inexact-float".
Set Default Proof Using "Type".

(** ** Python strings *)

(** [s.split(sep)] for a one-character separator: every occurrence of the
    separator ends a field, empty fields are kept, and a string without the
    separator is its own single field. *)
Fixpoint str_split (sep : ascii) (s : string) : list string :=
  match s with
  | EmptyString => [EmptyString]
  | String c s' =>
      if Ascii.eqb c sep then EmptyString :: str_split sep s'
      else match str_split sep s' with
           | [] => [String c EmptyString]
           | f :: fs => String c f :: fs
           end
  end.

(** Number of occurrences of a character. *)
Fixpoint str_count (c : ascii) (s : string) : nat :=
  match s with
  | EmptyString => 0
  | String c' s' => (if Ascii.eqb c' c then 1 else 0) + str_count c s'
  end.

Definition digit_of (c : ascii) : option nat :=
  let n := nat_of_ascii c in
  if (48 <=? n) && (n <=? 57) then Some (n - 48) else None.

(** [template.format(a0, a1, ...)] for templates made of literal text and
    numbered replacement fields [{0}], [{1}], ...  The second argument is
    the state of the scanner: [None] in literal text, [Some None] just
    after an opening brace, [Some (Some n)] after the digits of [n].
    Anything else a Python template may contain (automatic numbering,
    doubled braces, conversions, format specifications) is outside this
    fragment and yields [None], as does a field index past the arguments. *)
Fixpoint str_format_from (field : option (option nat)) (template : string)
    (args : list string) : option string :=
  match template with
  | EmptyString =>
      match field with
      | None => Some EmptyString
      | Some _ => None
      end
  | String c rest =>
      match field with
      | None =>
          if Ascii.eqb c "{"%char then str_format_from (Some None) rest args
          else if Ascii.eqb c "}"%char then None
          else String c <$> str_format_from None rest args
      | Some idx =>
          if Ascii.eqb c "}"%char then
            match idx with
            | None => None
            | Some n =>
                match args !! n with
                | None => None
                | Some a => String.append a <$> str_format_from None rest args
                end
            end
          else
            match digit_of c with
            | None => None
            | Some d =>
                str_format_from (Some (Some (10 * default 0 idx + d))) rest args
            end
      end
  end.

Definition str_format (template : string) (args : list string) : option string :=
  str_format_from None template args.

(** ** The shell line of a [!] escape *)

(** The characters of a word the shell passes on as it is: letters, digits
    and [- _ . /]. *)
Definition plain_char (c : ascii) : bool :=
  let n := nat_of_ascii c in
  ((48 <=? n) && (n <=? 57)) || ((65 <=? n) && (n <=? 90))
  || ((97 <=? n) && (n <=? 122))
  || (n =? 45) || (n =? 46) || (n =? 47) || (n =? 95).

Fixpoint all_plain (s : string) : bool :=
  match s with
  | EmptyString => true
  | String c s' => plain_char c && all_plain s'
  end.

Definition plain_word (s : string) : bool :=
  negb (String.eqb s "") && all_plain s.

(** Field splitting of a command line of unquoted words: the line is cut at
    every space and the empty fields are dropped.  The first word is the
    command, the others are its positional arguments. *)
Definition shell_words (cmdline : string) : list string :=
  List.filter (fun f => negb (String.eqb f "")) (str_split " " cmdline).

(** ** Python values and exceptions *)

(** The scalars the notebook passes as hyperparameters. *)
Inductive pyval : Type :=
| PyStr (s : string)
| PyInt (z : Z)
| PyFloat (f : float).

Inductive exn : Type :=
| IndexError
| ValueError
| ServiceError (message : string).

(** What a call gives: a value, or an exception. *)
Inductive outcome (A : Type) : Type :=
| Returned (a : A)
| Raised (e : exn).
Arguments Returned {A} a.
Arguments Raised {A} e.

Definition forget {A} (o : outcome A) : outcome unit :=
  match o with
  | Returned _ => Returned tt
  | Raised e => Raised e
  end.

(** ** Input channels and the job specification *)

(** [sagemaker.session.s3_input(s3_data, content_type=...)]. *)
Record s3_input_t : Type := s3_input {
  s3_data : string;
  content_type : option string
}.

Record file_system_input_t : Type := MkFileSystemInput {
  file_system_id : string;
  file_system_type : string;
  directory_path : string;
  file_system_access_mode : string
}.

Inductive channel : Type :=
| S3Channel (c : s3_input_t)
| FileSystemChannel (c : file_system_input_t).

(** Modelled from the spec: the constructor of a shared-filesystem channel
    ([sagemaker.inputs.FileSystemInput], a class of the SageMaker SDK that
    the notebook imports; its code is not under src/).  Spec 4.3 and 8: the
    channel is {filesystem id, filesystem type, directory path, access
    mode}, the access mode is restricted to exactly read-only and
    read-write, any other value fails construction, and the directory path
    is not validated locally. *)
Definition FileSystemInput (file_system_id file_system_type directory_path
    file_system_access_mode : string) : outcome file_system_input_t :=
  if String.eqb file_system_access_mode "ro"
     || String.eqb file_system_access_mode "rw"
  then Returned (MkFileSystemInput file_system_id file_system_type
                   directory_path file_system_access_mode)
  else Raised ValueError.

(** The estimator object: the arguments of
    [sagemaker.estimator.Estimator(image, role, train_instance_count=...,
    train_instance_type=..., base_job_name=..., subnets=...,
    security_group_ids=...)], an absent keyword being [None], and the
    hyperparameter dictionary the object carries. *)
Record estimator : Type := MkEstimator {
  image_name : string;
  role_arn : string;
  train_instance_count : Z;
  train_instance_type : string;
  base_job_name : option string;
  subnets : option (list string);
  security_group_ids : option (list string);
  hyperparam_dict : gmap string pyval
}.

Definition Estimator (image role : string) (count : Z) (type : string)
    (job_name : option string) (subnets security_group_ids : option (list string))
    : estimator :=
  MkEstimator image role count type job_name subnets security_group_ids ∅.

(** Modelled from the spec: [est.set_hyperparameters] with keyword arguments, of the
    SageMaker SDK (not under src/).  Spec 3: the job specification holds a
    free-form key to scalar mapping; each keyword is stored under its name,
    a later value for a key replacing an earlier one. *)
Definition set_hyperparameters (kwargs : gmap string pyval) (est : estimator)
    : estimator :=
  MkEstimator (image_name est) (role_arn est) (train_instance_count est)
    (train_instance_type est) (base_job_name est) (subnets est)
    (security_group_ids est) (kwargs ∪ hyperparam_dict est).

(** What the training service receives (spec 3, job specification): the
    estimator's fields and the named input channels. *)
Record job_specification : Type := MkJob {
  job_estimator : estimator;
  job_inputs : gmap string channel
}.

(** ** Events, the world, and the notebook monad *)

Inductive event : Type :=
| EvCall (callee : string) (r : outcome unit)
| EvSystem (cmdline : string) (status : Z)
| EvPrint (line : string)
| EvFit (job : job_specification) (r : outcome unit).

(** The collaborators outside the notebook.  A Python call returns or
    raises; a shell line ends with an exit status. *)
Record world : Type := MkWorld {
  get_execution_role : outcome string;
  region_name : outcome string;
  new_session : outcome unit;
  default_bucket : outcome string;
  system : string -> Z;
  create_training_job : job_specification -> outcome unit
}.

Definition with_system (w : world) (sys : string -> Z) : world :=
  MkWorld (get_execution_role w) (region_name w) (new_session w)
    (default_bucket w) sys (create_training_job w).

(** A computation of the notebook: the events it caused, in order, and how
    it ended. *)
Definition M (A : Type) : Type := (list event * outcome A)%type.

Definition trace {A} (m : M A) : list event := fst m.
Definition result {A} (m : M A) : outcome A := snd m.

#[export] Instance M_ret : MRet M := fun A a => ([], Returned a).

(** An exception ends the computation: what follows a raising statement,
    in its cell and in every later cell, is not run (unless the cell runs
    inside a magic that catches it, see [time_magic]). *)
#[export] Instance M_bind : MBind M := fun A B f m =>
  match m with
  | (t, Raised e) => (t, Raised e)
  | (t, Returned a) => let '(t', r) := f a in (t ++ t', r)
  end.

Definition lift {A} (o : outcome A) : M A := ([], o).

Definition call {A} (callee : string) (o : outcome A) : M A :=
  ([EvCall callee (forget o)], o).

Definition print (line : string) : M unit := ([EvPrint line], Returned tt).

(** [! cmdline]: IPython hands the line to the system shell and keeps the
    exit status in [_exit_code]; no exception is raised for any status. *)
Definition shell (w : world) (cmdline : string) : M unit :=
  ([EvSystem cmdline (system w cmdline)], Returned tt).

(** The [%%time] cell magic.  IPython runs the body of the cell inside a
    try statement whose handler shows the traceback and returns: an
    exception of the body is caught there, the cell ends normally and the
    cells after it run. *)
Definition time_magic (body : M unit) : M unit :=
  match body with
  | (t, Returned _) => (t, Returned tt)
  | (t, Raised _) => (t, Returned tt)
  end.

(** Modelled from the spec: [est.fit(inputs)] of the SageMaker SDK (not
    under src/).  Spec 4.3: the job specification is submitted to the
    training service as it stands, the call blocks until the service
    reports completion, and a failure surfaces as an error of the call. *)
Definition fit (w : world) (est : estimator) (inputs : gmap string channel)
    : M unit :=
  let job := MkJob est inputs in
  ([EvFit job (create_training_job w job)], create_training_job w job).

(** [l[i]] on a Python list, for an index that is not negative. *)
Definition getitem {A} (l : list A) (i : nat) : outcome A :=
  match l !! i with
  | Some a => Returned a
  | None => Raised IndexError
  end.

(** ** The cells of the notebook *)

(** The values a reader of the notebook is told to set: the hyperparameters
    of the two jobs and the description of the shared filesystem.  The cells
    below take them as a parameter; [notebook_params] holds the literals of
    the notebook itself. *)
Record params : Type := MkParams {
  hyperparameters : gmap string pyval;
  efs_file_system_id : string;
  efs_file_system_type : string;
  efs_train_directory_path : string;
  efs_validation_directory_path : string;
  efs_file_system_access_mode : string
}.

Definition notebook_params : params :=
  MkParams {[ "hp1" := PyStr "value1"; "hp2" := PyInt 300; "hp3" := PyFloat 0.001 ]}
    "fs-df51afdb" "EFS" "/LC80010022016230LGN00" "/LC80010022016246LGN00" "ro".

(** The notebook with the access mode changed to a value that is neither
    "ro" nor "rw". *)
Definition execute_mode_params : params :=
  MkParams (hyperparameters notebook_params) "fs-df51afdb" "EFS"
    "/LC80010022016230LGN00" "/LC80010022016246LGN00" "rwx".

(** The notebook with directory paths that are not absolute, not
    normalized, or empty, mounted read-write. *)
Definition odd_paths_params : params :=
  MkParams (hyperparameters notebook_params) "fs-df51afdb" "EFS"
    "data/../LC80010022016230LGN00//" "" "rw".

Definition ecr_namespace : string := "sagemaker-training-containers/".
Definition prefix : string := "basic-training-container".
Definition ecr_repository_name : string := ecr_namespace +:+ prefix.

(** The names the first cell leaves in the kernel for the later cells. *)
Record session_names : Type := MkNames {
  role : string;
  account_id : string;
  region : string;
  bucket : string
}.

(** [account_id = role.split(':')[4]]. *)
Definition account_id_of (role : string) : outcome string :=
  getitem (str_split ":" role) 4.

Definition cell_setup (w : world) : M session_names :=
  role ← call "get_execution_role" (get_execution_role w);
  account_id ← lift (account_id_of role);
  region ← call "boto3.Session().region_name" (region_name w);
  _ ← call "sagemaker.session.Session" (new_session w);
  bucket ← call "sagemaker_session.default_bucket" (default_bucket w);
  print account_id;;
  print region;;
  print role;;
  print bucket;;
  mret (MkNames role account_id region bucket).

Definition build_and_push_sh : string := "../scripts/build_and_push.sh".

(** [! ../scripts/build_and_push.sh $account_id $region $ecr_repository_name]:
    IPython puts the values of the three names into the line before the
    shell reads it.  Nothing is bound to what the line gives back. *)
Definition cell_build_and_push (w : world) (account_id region : string) : M unit :=
  shell w (build_and_push_sh +:+ " " +:+ account_id +:+ " " +:+ region
           +:+ " " +:+ ecr_repository_name).

Definition container_image_uri (account_id region repository : string)
    : option string :=
  str_format "{0}.dkr.ecr.{1}.amazonaws.com/{2}:latest"
    [account_id; region; repository].

Definition cell_image (account_id region : string) : M string :=
  uri ← lift (match container_image_uri account_id region ecr_repository_name with
              | Some u => Returned u
              | None => Raised ValueError
              end);
  print uri;;
  mret uri.

Definition cell_s3_job (w : world) (hp : gmap string pyval)
    (container_image_uri role : string) : M unit :=
  time_magic
  (let est := Estimator container_image_uri role 1 "ml.m5.xlarge" (Some prefix)
               None None in
  let est := set_hyperparameters hp est in
  let train_config :=
    s3_input "s3://landsat-pds/L8/001/002/LC80010022016230LGN00/" (Some "image/jpeg") in
  let val_config :=
    s3_input "s3://landsat-pds/L8/001/002/LC80010022016246LGN00/" (Some "image/jpeg") in
  fit w est {[ "train" := S3Channel train_config;
               "validation" := S3Channel val_config ]}).

Definition cell_efs_inputs (p : params)
    : M (file_system_input_t * file_system_input_t) :=
  let file_system_id := efs_file_system_id p in
  print ("EFS file-system-id: " +:+ file_system_id);;
  let file_system_directory_path := efs_train_directory_path p in
  print ("EFS file-system data input path: " +:+ file_system_directory_path);;
  let file_system_access_mode := efs_file_system_access_mode p in
  let file_system_type := efs_file_system_type p in
  train ← lift (FileSystemInput file_system_id file_system_type
                  file_system_directory_path file_system_access_mode);
  let file_system_directory_path := efs_validation_directory_path p in
  validation ← lift (FileSystemInput file_system_id file_system_type
                       file_system_directory_path file_system_access_mode);
  mret (train, validation).

Definition cell_efs_job (w : world) (hp : gmap string pyval)
    (container_image_uri role : string)
    (train validation : file_system_input_t) : M unit :=
  time_magic
  (let security_group_ids := ["sg-0c21b70b7f1480a4e"] in
  let subnets := ["subnet-0370146357224ed30"] in
  let est := Estimator container_image_uri role 1 "ml.m5.xlarge" (Some prefix)
               (Some subnets) (Some security_group_ids) in
  let est := set_hyperparameters hp est in
  let data_channels : gmap string channel :=
    {[ "train" := FileSystemChannel train;
       "validation" := FileSystemChannel validation ]} in
  fit w est data_channels).

(** The code cells in the order of the notebook; the two job cells open
    with [%%time], the build-and-push cell with [%%capture], the others
    with no magic.  Cells that hold only
    comments (the upload of dummy data, [mkdir], [mount], [aws s3 cp]) do
    nothing and are left out. *)
Definition notebook_with (p : params) (w : world) : M unit :=
  v ← cell_setup w;
  shell w "pygmentize ../docker/Dockerfile";;
  shell w "pygmentize ../scripts/build_and_push.sh";;
  cell_build_and_push w (account_id v) (region v);;
  uri ← cell_image (account_id v) (region v);
  shell w "pygmentize ../docker/code/main.py";;
  cell_s3_job w (hyperparameters p) uri (role v);;
  shell w "sudo yum install -y amazon-efs-utils";;
  shell w "echo $HOME";;
  inputs ← cell_efs_inputs p;
  cell_efs_job w (hyperparameters p) uri (role v) (fst inputs) (snd inputs).

Definition notebook (w : world) : M unit := notebook_with notebook_params w.

(** ** Reading a trace *)

(** The job specifications that reached the training service, in order. *)
Fixpoint submitted (t : list event) : list job_specification :=
  match t with
  | [] => []
  | EvFit job _ :: t' => job :: submitted t'
  | _ :: t' => submitted t'
  end.

(** The positional arguments of every run of the build-and-push script. *)
Fixpoint build_and_push_calls (t : list event) : list (list string) :=
  match t with
  | [] => []
  | EvSystem cmdline _ :: t' =>
      match shell_words cmdline with
      | cmd :: argv =>
          if String.eqb cmd build_and_push_sh
          then argv :: build_and_push_calls t'
          else build_and_push_calls t'
      | [] => build_and_push_calls t'
      end
  | _ :: t' => build_and_push_calls t'
  end.

(** The exception an event shows, if any. *)
Definition event_exn (ev : event) : option exn :=
  match ev with
  | EvCall _ (Raised e) | EvFit _ (Raised e) => Some e
  | _ => None
  end.

(** An event that shows a failure of a collaborator: a raised exception, or
    a shell line that ended with a status other than zero. *)
Definition event_failed (ev : event) : bool :=
  match ev with
  | EvSystem _ status => negb (status =? 0)%Z
  | _ => bool_decide (is_Some (event_exn ev))
  end.

(** The event with the exit status blanked. *)
Definition without_status (ev : event) : event :=
  match ev with
  | EvSystem cmdline _ => EvSystem cmdline 0
  | _ => ev
  end.

(** Nothing runs after an event that [P] marks. *)
Definition stops_at {A} (P : event -> Prop) (m : M A) : Prop :=
  forall i ev, trace m !! i = Some ev -> P ev -> trace m !! S i = None.

(** A job that reads one of its channels from a shared filesystem. *)
Definition shared_filesystem_job (job : job_specification) : Prop :=
  exists name c, job_inputs job !! name = Some (FileSystemChannel c).

(** ** Runs that stop at the first exception *)

(** The exception a call to a collaborator other than the training
    service shows, if any. *)
Definition call_exn (ev : event) : option exn :=
  match ev with
  | EvCall _ (Raised e) => Some e
  | _ => None
  end.

Definition quiet (ev : event) : Prop := call_exn ev = None.

(** A run either returns after events that show no such exception, or
    ends with an exception raised elsewhere (by the notebook's own code, by
    a constructor, by a submission) after such events, or ends with the
    exception that its last event, a call, shows. *)
Inductive disciplined {A : Type} : M A -> Prop :=
| disciplined_returned t a :
    Forall quiet t -> disciplined (t, Returned a)
| disciplined_local t e :
    Forall quiet t -> disciplined (t, Raised e)
| disciplined_external t ev e :
    Forall quiet t -> call_exn ev = Some e -> disciplined (t ++ [ev], Raised e).

(** Two runs that differ at most in the exit statuses of their shell lines. *)
Definition same_run {A} (m1 m2 : M A) : Prop :=
  without_status <$> trace m1 = without_status <$> trace m2
  /\ result m1 = result m2.

(** ** Some worlds *)

(** Every collaborator answers. *)
Definition fair_weather : world :=
  MkWorld (Returned "arn:aws:iam::123456789012:role/service-role/SageMakerRole")
    (Returned "us-east-1") (Returned tt)
    (Returned "sagemaker-us-east-1-123456789012")
    (fun _ => 0%Z) (fun _ => Returned tt).

(** The build-and-push script ends with status 1; everything else answers. *)
Definition failed_push : world :=
  with_system fair_weather
    (fun cmdline => if String.prefix build_and_push_sh cmdline then 1%Z else 0%Z).

(** The execution role is a bare name, not an ARN. *)
Definition bare_role : world :=
  MkWorld (Returned "SageMakerRole") (Returned "us-east-1") (Returned tt)
    (Returned "sagemaker-us-east-1-123456789012")
    (fun _ => 0%Z) (fun _ => Returned tt).

(** The training service refuses every job. *)
Definition service_down : world :=
  MkWorld (Returned "arn:aws:iam::123456789012:role/service-role/SageMakerRole")
    (Returned "us-east-1") (Returned tt)
    (Returned "sagemaker-us-east-1-123456789012")
    (fun _ => 0%Z) (fun _ => Raised (ServiceError "training job failed")).

(** ** More ways to read a trace *)

(** An event of a Python call to a collaborator other than the training
    service. *)
Definition is_call (ev : event) : Prop :=
  match ev with
  | EvCall _ _ => True
  | _ => False
  end.


(** The role ARN carries no account id: its fifth field is empty. *)
Definition empty_account : world :=
  MkWorld (Returned "arn:aws:iam:::role/service-role/SageMakerRole")
    (Returned "us-east-1") (Returned tt)
    (Returned "sagemaker-us-east-1-123456789012")
    (fun _ => 0%Z) (fun _ => Returned tt).

(** The default bucket cannot be resolved; everything else answers. *)
Definition no_bucket : world :=
  MkWorld (Returned "arn:aws:iam::123456789012:role/service-role/SageMakerRole")
    (Returned "us-east-1") (Returned tt)
    (Raised (ServiceError "no default bucket"))
    (fun _ => 0%Z) (fun _ => Returned tt).

(** * Properties *)

(** ** Strings *)

Lemma str_split_length sep s : length (str_split sep s) = S (str_count sep s).
Proof.
  induction s as [|c s IH]; [reflexivity|].
  cbn [str_split str_count].
  destruct (Ascii.eqb c sep).
  - cbn. by rewrite IH.
  - destruct (str_split sep s); cbn in *; lia.
Qed.

Lemma str_split_no_sep sep s : str_count sep s = 0 -> str_split sep s = [s].
Proof.
  induction s as [|c s IH]; [reflexivity|].
  cbn [str_split str_count].
  destruct (Ascii.eqb c sep); [discriminate|].
  intros H. by rewrite IH.
Qed.

Lemma str_split_app sep a rest :
  str_count sep a = 0 ->
  str_split sep (a +:+ String sep "" +:+ rest) = a :: str_split sep rest.
Proof.
  change (String sep "" +:+ rest) with (String sep rest).
  induction a as [|c a IH]; simpl.
  - by rewrite Ascii.eqb_refl.
  - destruct (Ascii.eqb c sep); [discriminate|].
    intros H. by rewrite IH.
Qed.

Lemma container_image_uri_eq account region repository :
  container_image_uri account region repository
  = Some (account +:+ ".dkr.ecr." +:+ region +:+ ".amazonaws.com/"
          +:+ repository +:+ ":latest").
Proof. reflexivity. Qed.

(** ** The monad *)

Section monad_equations.
Context {A B : Type}.
Implicit Types (m : M A) (f : A -> M B).

Lemma trace_bind m f :
  trace (m ≫= f)
  = trace m ++ match result m with
               | Returned a => trace (f a)
               | Raised _ => []
               end.
Proof.
  destruct m as [t [a|e]]; cbn.
  - by destruct (f a).
  - by rewrite app_nil_r.
Qed.

Lemma result_bind m f :
  result (m ≫= f)
  = match result m with
    | Returned a => result (f a)
    | Raised e => Raised e
    end.
Proof.
  destruct m as [t [a|e]]; cbn; [|done].
  by destruct (f a).
Qed.
End monad_equations.

Lemma trace_time_magic body : trace (time_magic body) = trace body.
Proof. by destruct body as [t []]. Qed.

Lemma result_time_magic body : result (time_magic body) = Returned tt.
Proof. by destruct body as [t []]. Qed.

Lemma submitted_app t1 t2 : submitted (t1 ++ t2) = submitted t1 ++ submitted t2.
Proof.
  induction t1 as [|[] t1 IH]; cbn; by rewrite ?IH.
Qed.

Lemma build_and_push_calls_app t1 t2 :
  build_and_push_calls (t1 ++ t2)
  = build_and_push_calls t1 ++ build_and_push_calls t2.
Proof.
  induction t1 as [|ev t1 IH]; [done|].
  destruct ev; cbn; try done.
  destruct (shell_words cmdline) as [|cmd argv]; [done|].
  destruct (String.eqb cmd build_and_push_sh); cbn; by rewrite IH.
Qed.

(** One step of a run: the outermost bind is split into what its first
    computation did and what follows. *)
Ltac step :=
  rewrite ?trace_bind, ?result_bind;
  cbn [call lift print shell fit time_magic trace result fst snd mret M_ret].

(** ** The first cell *)

Lemma cell_setup_returned w v :
  result (cell_setup w) = Returned v ->
  get_execution_role w = Returned (role v)
  /\ account_id_of (role v) = Returned (account_id v)
  /\ region_name w = Returned (region v)
  /\ default_bucket w = Returned (bucket v).
Proof.
  unfold cell_setup. step.
  destruct (get_execution_role w) as [r|]; [|done]. step.
  destruct (account_id_of r) as [a|] eqn:Ha; [|done]. step.
  destruct (region_name w) as [g|]; [|done]. step.
  destruct (new_session w); [|done]. step.
  destruct (default_bucket w) as [b|]; [|done].
  repeat step.
  intros [= <-]. cbn [role account_id region bucket]. by rewrite Ha.
Qed.

Lemma cell_setup_submits_nothing w : submitted (trace (cell_setup w)) = [].
Proof.
  unfold cell_setup. step.
  destruct (get_execution_role w) as [r|]; [|done]. step.
  destruct (account_id_of r) as [a|]; [|done]. step.
  destruct (region_name w) as [g|]; [|done]. step.
  destruct (new_session w); [|done]. step.
  destruct (default_bucket w) as [b|]; [|done].
  repeat step. done.
Qed.

Lemma cell_image_eq account_id region :
  cell_image account_id region
  = (let uri := account_id +:+ ".dkr.ecr." +:+ region +:+ ".amazonaws.com/"
                +:+ ecr_repository_name +:+ ":latest" in
     ([EvPrint uri], Returned uri)).
Proof. reflexivity. Qed.

Lemma cell_efs_inputs_eq p :
  cell_efs_inputs p
  = ([EvPrint ("EFS file-system-id: " +:+ efs_file_system_id p);
      EvPrint ("EFS file-system data input path: " +:+ efs_train_directory_path p)],
     match FileSystemInput (efs_file_system_id p) (efs_file_system_type p)
             (efs_train_directory_path p) (efs_file_system_access_mode p) with
     | Returned train =>
         match FileSystemInput (efs_file_system_id p) (efs_file_system_type p)
                 (efs_validation_directory_path p)
                 (efs_file_system_access_mode p) with
         | Returned validation => Returned (train, validation)
         | Raised e => Raised e
         end
     | Raised e => Raised e
     end).
Proof.
  unfold cell_efs_inputs. cbn.
  destruct (FileSystemInput _ _ (efs_train_directory_path p) _); [|done].
  by destruct (FileSystemInput _ _ (efs_validation_directory_path p) _).
Qed.

(** ** What reaches the training service *)

(** The jobs of a run are those of the two job cells, the second only
    after the first has returned and both channels have been built. *)
Lemma submitted_notebook_with p w :
  submitted (trace (notebook_with p w))
  = match result (cell_setup w) with
    | Returned v =>
        match result (cell_image (account_id v) (region v)) with
        | Returned uri =>
            submitted (trace (cell_s3_job w (hyperparameters p) uri (role v)))
            ++ match result (cell_s3_job w (hyperparameters p) uri (role v)) with
               | Returned _ =>
                   match result (cell_efs_inputs p) with
                   | Returned inputs =>
                       submitted (trace (cell_efs_job w (hyperparameters p) uri
                                           (role v) inputs.1 inputs.2))
                   | Raised _ => []
                   end
               | Raised _ => []
               end
        | Raised _ => []
        end
    | Raised _ => []
    end.
Proof.
  unfold notebook_with. step.
  rewrite submitted_app, cell_setup_submits_nothing.
  destruct (result (cell_setup w)) as [v|]; [|done].
  cbn [app]. unfold cell_build_and_push. rewrite cell_image_eq.
  repeat step.
  rewrite !submitted_app. cbn [submitted app].
  destruct (result (cell_s3_job _ _ _ _)); [|done].
  repeat step.
  rewrite cell_efs_inputs_eq. cbn [trace result fst snd app submitted].
  by destruct (FileSystemInput _ _ (efs_train_directory_path p) _);
    [destruct (FileSystemInput _ _ (efs_validation_directory_path p) _)|].
Qed.

Lemma cell_s3_job_eq w hp uri role :
  cell_s3_job w hp uri role
  = time_magic
      (fit w (MkEstimator uri role 1 "ml.m5.xlarge" (Some prefix) None None (hp ∪ ∅))
         {[ "train" := S3Channel
              (s3_input "s3://landsat-pds/L8/001/002/LC80010022016230LGN00/"
                 (Some "image/jpeg"));
            "validation" := S3Channel
              (s3_input "s3://landsat-pds/L8/001/002/LC80010022016246LGN00/"
                 (Some "image/jpeg")) ]}).
Proof. reflexivity. Qed.

Lemma cell_efs_job_eq w hp uri role train validation :
  cell_efs_job w hp uri role train validation
  = time_magic
      (fit w (MkEstimator uri role 1 "ml.m5.xlarge" (Some prefix)
                (Some ["subnet-0370146357224ed30"]) (Some ["sg-0c21b70b7f1480a4e"])
                (hp ∪ ∅))
         {[ "train" := FileSystemChannel train;
            "validation" := FileSystemChannel validation ]}).
Proof. reflexivity. Qed.

(** Every job of a run satisfies [P] as soon as the two job cells, run
    with the names of the first cell and the composed image reference,
    submit only jobs that satisfy it. *)
Lemma submitted_notebook_with_Forall (P : job_specification -> Prop) p w :
  (forall v train validation,
      result (cell_setup w) = Returned v ->
      let uri := account_id v +:+ ".dkr.ecr." +:+ region v +:+ ".amazonaws.com/"
                 +:+ ecr_repository_name +:+ ":latest" in
      Forall P (submitted (trace (cell_s3_job w (hyperparameters p) uri (role v))))
      /\ (result (cell_efs_inputs p) = Returned (train, validation) ->
          Forall P (submitted (trace (cell_efs_job w (hyperparameters p) uri
                                        (role v) train validation))))) ->
  Forall P (submitted (trace (notebook_with p w))).
Proof.
  intros H. rewrite submitted_notebook_with.
  destruct (result (cell_setup w)) as [v|] eqn:Hv; [|constructor].
  rewrite cell_image_eq. cbn [result snd].
  apply Forall_app. split.
  - by apply (H v (MkFileSystemInput "" "" "" "") (MkFileSystemInput "" "" "" "")).
  - destruct (result (cell_s3_job _ _ _ _)); [|constructor].
    destruct (result (cell_efs_inputs p)) as [[train validation]|] eqn:Hin;
      [|constructor].
    by apply (H v train validation).
Qed.

(** ** The image reference *)

(** C1: for every account id, region and repository name the image
    reference is the concatenation
    account ".dkr.ecr." region ".amazonaws.com/" repository ":latest";
    it is composed from the three strings alone, so every job a run
    submits carries that reference, composed from the account id and the
    region of the first cell, whatever exit status the shell lines (the
    build-and-push script among them) ended with; so it is in the world
    [failed_push], where the script ends with status 1 and both jobs are
    still submitted with the reference. *)
Theorem C1_image_reference_is_concatenation :
  (forall account region repository,
      container_image_uri account region repository
      = Some (account +:+ ".dkr.ecr." +:+ region +:+ ".amazonaws.com/"
              +:+ repository +:+ ":latest"))
  /\ (forall p w sys,
         Forall (fun job =>
                   exists r a g,
                     get_execution_role w = Returned r
                     /\ account_id_of r = Returned a
                     /\ region_name w = Returned g
                     /\ image_name (job_estimator job)
                        = a +:+ ".dkr.ecr." +:+ g +:+ ".amazonaws.com/"
                          +:+ ecr_repository_name +:+ ":latest")
           (submitted (trace (notebook_with p (with_system w sys)))))
  /\ (fun job => image_name (job_estimator job))
     <$> submitted (trace (notebook failed_push))
     = [ "123456789012.dkr.ecr.us-east-1.amazonaws.com/sagemaker-training-containers/basic-training-container:latest";
         "123456789012.dkr.ecr.us-east-1.amazonaws.com/sagemaker-training-containers/basic-training-container:latest" ].
Proof.
  split; [apply container_image_uri_eq|].
  split; [|vm_compute; reflexivity].
  intros p w sys. apply submitted_notebook_with_Forall.
  intros v train validation Hv uri.
  apply cell_setup_returned in Hv as (Hr & Ha & Hg & _). cbn in Hr, Hg.
  rewrite cell_s3_job_eq, cell_efs_job_eq, ?trace_time_magic, ?result_time_magic.
  split; [|intros _]; repeat constructor; by exists (role v), (account_id v), (region v).
Qed.

(** C2: for account "123456789012", region "us-east-1" and the repository
    name of the notebook, "sagemaker-training-containers/basic-training-container",
    the image reference is exactly
    "123456789012.dkr.ecr.us-east-1.amazonaws.com/sagemaker-training-containers/basic-training-container:latest". *)
Theorem C2_image_reference_example :
  ecr_repository_name = "sagemaker-training-containers/basic-training-container"
  /\ container_image_uri "123456789012" "us-east-1"
       "sagemaker-training-containers/basic-training-container"
     = Some "123456789012.dkr.ecr.us-east-1.amazonaws.com/sagemaker-training-containers/basic-training-container:latest"
  /\ result (cell_image "123456789012" "us-east-1")
     = Returned "123456789012.dkr.ecr.us-east-1.amazonaws.com/sagemaker-training-containers/basic-training-container:latest".
Proof. repeat split. Qed.

(** ** The account id *)

Lemma M_eq {A} (m : M A) t r : trace m = t -> result m = r -> m = (t, r).
Proof. destruct m. cbn. congruence. Qed.

Lemma account_id_of_short role :
  length (str_split ":" role) < 5 -> account_id_of role = Raised IndexError.
Proof.
  intros H. unfold account_id_of, getitem.
  rewrite (lookup_ge_None_2 (str_split ":" role) 4); [done|lia].
Qed.

Lemma append_empty_r (s : string) : s +:+ "" = s.
Proof.
  induction s as [|c s IH]; [done|].
  change (String c (s +:+ "") = String c s). by rewrite IH.
Qed.

Lemma account_id_of_fields f0 f1 f2 f3 f4 tail :
  str_count ":" f0 = 0 -> str_count ":" f1 = 0 -> str_count ":" f2 = 0 ->
  str_count ":" f3 = 0 -> str_count ":" f4 = 0 ->
  (tail = "" \/ exists rest, tail = String ":" rest) ->
  account_id_of (f0 +:+ ":" +:+ f1 +:+ ":" +:+ f2 +:+ ":" +:+ f3 +:+ ":"
                 +:+ f4 +:+ tail)
  = Returned f4.
Proof.
  intros H0 H1 H2 H3 H4 Htail. unfold account_id_of, getitem.
  rewrite !str_split_app by done.
  destruct Htail as [->|[rest ->]].
  - rewrite append_empty_r. by rewrite str_split_no_sep.
  - change (String ":" rest) with (":" +:+ rest). by rewrite str_split_app.
Qed.

(** C8: the account id is the field of index 4 of the role string cut at
    its colons, the fifth colon-separated field (a string has one field
    more than it has colons); for a role string with
    fewer than five such fields the derivation raises IndexError, and the
    run ends there: after the call that gave the role no event follows. *)
Theorem C8_account_id_is_fifth_field :
  (forall role a,
      account_id_of role = Returned a <-> str_split ":" role !! 4 = Some a)
  /\ (forall role, length (str_split ":" role) = S (str_count ":" role))
  /\ (forall f0 f1 f2 f3 f4 rest,
         str_count ":" f0 = 0 -> str_count ":" f1 = 0 -> str_count ":" f2 = 0 ->
         str_count ":" f3 = 0 -> str_count ":" f4 = 0 ->
         account_id_of (f0 +:+ ":" +:+ f1 +:+ ":" +:+ f2 +:+ ":" +:+ f3 +:+ ":"
                        +:+ f4)
         = Returned f4
         /\ account_id_of (f0 +:+ ":" +:+ f1 +:+ ":" +:+ f2 +:+ ":" +:+ f3 +:+ ":"
                           +:+ f4 +:+ ":" +:+ rest)
            = Returned f4)
  /\ (forall role,
         length (str_split ":" role) < 5 ->
         account_id_of role = Raised IndexError
         /\ forall p w,
             get_execution_role w = Returned role ->
             notebook_with p w
             = ([EvCall "get_execution_role" (Returned tt)], Raised IndexError)).
Proof.
  split; [|split; [|split]].
  - intros role a. unfold account_id_of, getitem.
    destruct (str_split ":" role !! 4); split; congruence.
  - intros role. apply str_split_length.
  - intros f0 f1 f2 f3 f4 rest H0 H1 H2 H3 H4. split.
    + rewrite <- (account_id_of_fields f0 f1 f2 f3 f4 "") by auto.
      by rewrite append_empty_r.
    + apply account_id_of_fields; eauto.
  - intros role Hshort.
    pose proof (account_id_of_short role Hshort) as Hid.
    split; [done|]. intros p w Hrole.
    unfold notebook_with, cell_setup.
    apply M_eq; repeat step; rewrite Hrole; repeat step; by rewrite Hid.
Qed.

Lemma C8_witness :
  notebook bare_role
  = ([EvCall "get_execution_role" (Returned tt)], Raised IndexError).
Proof.
  apply (proj2 (proj2 (proj2 (proj2 C8_account_id_is_fifth_field))
                  "SageMakerRole"
                  ltac:(cbn; lia)) notebook_params bare_role).
  reflexivity.
Defined.

(** ** Exceptions end the run *)

Section discipline.
Context {A B : Type}.

Lemma disciplined_bind (m : M A) (f : A -> M B) :
  disciplined m -> (forall a, disciplined (f a)) -> disciplined (m ≫= f).
Proof.
  intros Hm Hf. destruct Hm as [t a Ht|t e Ht|t ev e Ht Hev].
  - pose proof (Hf a) as Hfa. unfold mbind, M_bind.
    inversion Hfa as [t' b Ht' Heq|t' e Ht' Heq|t' ev e Ht' Hev Heq].
    + constructor. by apply Forall_app.
    + constructor. by apply Forall_app.
    + rewrite app_assoc. constructor; [by apply Forall_app|done].
  - by constructor.
  - by constructor.
Qed.

Lemma disciplined_stops (m : M A) :
  disciplined m ->
  forall i ev x,
    trace m !! i = Some ev -> call_exn ev = Some x ->
    trace m !! S i = None /\ result m = Raised x.
Proof.
  intros Hm i ev x Hi Hx.
  assert (Hloud : forall t : list event,
             Forall quiet t -> t !! i = Some ev -> False).
  { intros t Ht Hti. pose proof (Forall_lookup_1 _ _ _ _ Ht Hti) as Hq.
    unfold quiet in Hq. congruence. }
  destruct Hm as [t a Ht|t e Ht|t ev' e Ht Hev]; cbn [trace result fst snd] in *.
  - destruct (Hloud t Ht Hi).
  - destruct (Hloud t Ht Hi).
  - apply lookup_app_Some in Hi as [Hi|[Hlen Hi]]; [destruct (Hloud t Ht Hi)|].
    apply list_lookup_singleton_Some in Hi as [Hz ->].
    split; [|congruence].
    apply lookup_ge_None_2. rewrite length_app. cbn. lia.
Qed.
End discipline.

Lemma disciplined_ret {A} (a : A) : disciplined (mret a).
Proof. by constructor. Qed.

Lemma disciplined_lift {A} (o : outcome A) : disciplined (lift o).
Proof. destruct o; by constructor. Qed.

Lemma disciplined_call {A} callee (o : outcome A) : disciplined (call callee o).
Proof.
  destruct o as [a|e]; unfold call; cbn [forget].
  - constructor. by repeat constructor.
  - by apply (disciplined_external [] (EvCall callee (Raised e)) e).
Qed.

Lemma disciplined_print line : disciplined (print line).
Proof. constructor. by repeat constructor. Qed.

Lemma disciplined_shell w cmdline : disciplined (shell w cmdline).
Proof. constructor. by repeat constructor. Qed.

Lemma disciplined_fit w est inputs : disciplined (fit w est inputs).
Proof.
  unfold fit. cbn zeta.
  destruct (create_training_job w _) as [[]|e]; constructor; by repeat constructor.
Qed.

Lemma disciplined_time_magic body :
  Forall quiet (trace body) -> disciplined (time_magic body).
Proof. destruct body as [t []]; by constructor. Qed.

Create HintDb discipline.
#[local] Hint Resolve disciplined_ret disciplined_lift disciplined_call
  disciplined_print disciplined_shell disciplined_fit : discipline.

Lemma disciplined_notebook_with p w : disciplined (notebook_with p w).
Proof.
  unfold notebook_with, cell_setup, cell_build_and_push, cell_image,
    cell_efs_inputs.
  repeat (apply disciplined_bind; [|intros ?]); cbn zeta;
    auto with discipline.
  - rewrite cell_s3_job_eq. apply disciplined_time_magic. by repeat constructor.
  - rewrite cell_efs_job_eq. apply disciplined_time_magic. by repeat constructor.
Qed.

(** The run of a returned first cell with both channels built: two jobs
    go to the training service and the run returns, whatever the service
    answers. *)
Lemma notebook_with_both_jobs p w v inputs :
  result (cell_setup w) = Returned v ->
  result (cell_efs_inputs p) = Returned inputs ->
  result (notebook_with p w) = Returned tt
  /\ length (submitted (trace (notebook_with p w))) = 2.
Proof.
  intros Hv Hin. split.
  - unfold notebook_with, cell_build_and_push. step. rewrite Hv.
    repeat step. rewrite cell_image_eq. cbn [result snd]. repeat step.
    rewrite cell_s3_job_eq, result_time_magic. repeat step.
    rewrite Hin, cell_efs_job_eq. apply result_time_magic.
  - rewrite submitted_notebook_with, Hv, cell_image_eq. cbn [result snd].
    rewrite cell_s3_job_eq, trace_time_magic, result_time_magic, Hin.
    rewrite cell_efs_job_eq, trace_time_magic. reflexivity.
Qed.

(** C7 (as amended): an exception raised by a Python call of the first
    cell (the execution role, the region, the session, the default bucket)
    ends the run at once: the event of that call is the last of the trace
    and the run ends with that very exception, so nothing caught it,
    nothing was retried and no later cell ran.  The other failures do not
    end the run.  A shell line raises nothing, whatever its exit status:
    once the first cell has returned the S3 job is submitted, however the
    build-and-push script ended.  And what a submission raises is caught
    by the [%%time] magic of its cell: once the first cell has returned
    and both channels are built, two jobs are submitted and the run
    returns, whatever the training service answers. *)
Theorem C7_which_failures_end_the_run p w :
  (forall i callee x,
      trace (notebook_with p w) !! i = Some (EvCall callee (Raised x)) ->
      trace (notebook_with p w) !! S i = None
      /\ result (notebook_with p w) = Raised x)
  /\ (forall cmdline,
         shell w cmdline = ([EvSystem cmdline (system w cmdline)], Returned tt))
  /\ (forall v,
         result (cell_setup w) = Returned v ->
         exists job rest, submitted (trace (notebook_with p w)) = job :: rest)
  /\ (forall est inputs, result (time_magic (fit w est inputs)) = Returned tt)
  /\ (forall v inputs,
         result (cell_setup w) = Returned v ->
         result (cell_efs_inputs p) = Returned inputs ->
         result (notebook_with p w) = Returned tt
         /\ length (submitted (trace (notebook_with p w))) = 2).
Proof.
  split; [|split; [done|split; [|split]]].
  - intros i callee x Hi.
    by apply (disciplined_stops _ (disciplined_notebook_with p w) i
                (EvCall callee (Raised x)) x).
  - intros v Hv. rewrite submitted_notebook_with, Hv, cell_image_eq.
    cbn [result snd]. rewrite cell_s3_job_eq, trace_time_magic.
    cbn [fit trace fst submitted app]. eauto.
  - intros est inputs. apply result_time_magic.
  - apply notebook_with_both_jobs.
Qed.

Lemma C7_witness :
  (trace (notebook no_bucket) !! 4 = None
   /\ result (notebook no_bucket) = Raised (ServiceError "no default bucket"))
  /\ (result (notebook service_down) = Returned tt
      /\ length (submitted (trace (notebook service_down))) = 2).
Proof.
  split.
  - apply (proj1 (C7_which_failures_end_the_run notebook_params no_bucket) 3
             "sagemaker_session.default_bucket"
             (ServiceError "no default bucket")).
    reflexivity.
  - eapply (proj2 (proj2 (proj2 (proj2
              (C7_which_failures_end_the_run notebook_params service_down)))));
      reflexivity.
Defined.

(** C7 as the claim states it, with the build-and-push script and the
    submission of a job among the calls whose failure ends the run, does
    not hold.  In the world [failed_push] the script ends with status 1 at
    position 10 of the trace, and the run goes on to print the image
    reference and to submit both training jobs.  In the world
    [service_down] the training service refuses the first job at position
    13 of the trace, and the run goes on with the next shell line. *)
Lemma C7_counterexample :
  trace (notebook failed_push) !! 10
  = Some (EvSystem "../scripts/build_and_push.sh 123456789012 us-east-1 sagemaker-training-containers/basic-training-container" 1)
  /\ length (submitted (trace (notebook failed_push))) = 2
  /\ result (notebook failed_push) = Returned tt
  /\ ~ (forall p w, stops_at (fun ev => event_failed ev = true) (notebook_with p w))
  /\ (exists job,
         trace (notebook service_down) !! 13
         = Some (EvFit job (Raised (ServiceError "training job failed"))))
  /\ trace (notebook service_down) !! 14
     = Some (EvSystem "sudo yum install -y amazon-efs-utils" 0).
Proof.
  cut (trace (notebook failed_push) !! 10
       = Some (EvSystem "../scripts/build_and_push.sh 123456789012 us-east-1 sagemaker-training-containers/basic-training-container" 1)
       /\ length (submitted (trace (notebook failed_push))) = 2
       /\ result (notebook failed_push) = Returned tt
       /\ ~ (forall p w, stops_at (fun ev => event_failed ev = true) (notebook_with p w))).
  { intros (H1 & H2 & H3 & H4). do 4 (split; [assumption|]).
    split; [eexists; reflexivity|reflexivity]. }
  assert (H10 : trace (notebook failed_push) !! 10
                = Some (EvSystem "../scripts/build_and_push.sh 123456789012 us-east-1 sagemaker-training-containers/basic-training-container" 1))
    by (vm_compute; reflexivity).
  split; [done|].
  split; [by vm_compute|].
  split; [by vm_compute|].
  intros H. specialize (H notebook_params failed_push 10 _ H10 eq_refl).
  vm_compute in H. discriminate.
Qed.

(** ** The build-and-push line *)

Section same_runs.
Context {A B : Type}.

Lemma same_run_refl (m : M A) : same_run m m.
Proof. by split. Qed.

Lemma same_run_bind (m1 m2 : M A) (f1 f2 : A -> M B) :
  same_run m1 m2 -> (forall a, same_run (f1 a) (f2 a)) ->
  same_run (m1 ≫= f1) (m2 ≫= f2).
Proof.
  intros [Ht Hr] Hf. split.
  - rewrite !trace_bind, !fmap_app, Ht, Hr.
    destruct (result m2) as [a|]; [|done].
    by rewrite (proj1 (Hf a)).
  - rewrite !result_bind, Hr.
    destruct (result m2) as [a|]; [|done].
    apply Hf.
Qed.
End same_runs.

Lemma same_run_shell w sys cmdline :
  same_run (shell (with_system w sys) cmdline) (shell w cmdline).
Proof. by split. Qed.

(** The exit statuses of the shell lines change nothing in a run but
    themselves: no later statement reads them. *)
Lemma notebook_ignores_exit_status p w sys :
  same_run (notebook_with p (with_system w sys)) (notebook_with p w).
Proof.
  unfold notebook_with, cell_build_and_push.
  repeat (apply same_run_bind; [|intros ?]);
    first [apply same_run_shell | apply same_run_refl].
Qed.

Lemma all_plain_no_space s : all_plain s = true -> str_count " " s = 0.
Proof.
  induction s as [|c s IH]; [done|].
  cbn [all_plain str_count]. intros [Hc Hs]%andb_prop.
  destruct (Ascii.eqb_spec c " ") as [->|_]; [discriminate|].
  by rewrite IH.
Qed.

Lemma plain_word_nonempty s : plain_word s = true -> String.eqb s "" = false.
Proof. unfold plain_word. intros [H _]%andb_prop. by apply negb_true_iff. Qed.

Lemma shell_words_build_and_push a g :
  plain_word a = true -> plain_word g = true ->
  shell_words (build_and_push_sh +:+ " " +:+ a +:+ " " +:+ g
               +:+ " " +:+ ecr_repository_name)
  = [build_and_push_sh; a; g; ecr_repository_name].
Proof.
  intros Ha Hg. unfold shell_words.
  pose proof (plain_word_nonempty a Ha) as Ha0.
  pose proof (plain_word_nonempty g Hg) as Hg0.
  apply andb_prop in Ha as [_ Ha]. apply andb_prop in Hg as [_ Hg].
  rewrite (str_split_app " " build_and_push_sh) by reflexivity.
  rewrite (str_split_app " " a) by by apply all_plain_no_space.
  rewrite (str_split_app " " g) by by apply all_plain_no_space.
  rewrite (str_split_no_sep " " ecr_repository_name) by reflexivity.
  cbn [List.filter]. rewrite Ha0, Hg0. reflexivity.
Qed.

Lemma build_and_push_calls_cons ev t :
  build_and_push_calls (ev :: t)
  = build_and_push_calls [ev] ++ build_and_push_calls t.
Proof. apply (build_and_push_calls_app [ev]). Qed.

Lemma build_and_push_calls_print line t :
  build_and_push_calls (EvPrint line :: t) = build_and_push_calls t.
Proof. reflexivity. Qed.

Lemma build_and_push_calls_fit job r t :
  build_and_push_calls (EvFit job r :: t) = build_and_push_calls t.
Proof. reflexivity. Qed.

Lemma build_and_push_calls_other cmdline status t :
  match shell_words cmdline with
  | cmd :: _ => String.eqb cmd build_and_push_sh
  | [] => false
  end = false ->
  build_and_push_calls (EvSystem cmdline status :: t) = build_and_push_calls t.
Proof.
  cbn [build_and_push_calls].
  destruct (shell_words cmdline) as [|cmd argv]; [done|].
  by intros ->.
Qed.

Lemma cell_setup_runs_no_script w : build_and_push_calls (trace (cell_setup w)) = [].
Proof.
  unfold cell_setup. step.
  destruct (get_execution_role w) as [r|]; [|done]. step.
  destruct (account_id_of r) as [a|]; [|done]. step.
  destruct (region_name w) as [g|]; [|done]. step.
  destruct (new_session w); [|done]. step.
  destruct (default_bucket w) as [b|]; [|done].
  repeat step. done.
Qed.

(** The script runs in one cell only, the fourth. *)
Lemma build_and_push_calls_notebook_with p w :
  build_and_push_calls (trace (notebook_with p w))
  = match result (cell_setup w) with
    | Returned v =>
        build_and_push_calls
          (trace (cell_build_and_push w (account_id v) (region v)))
    | Raised _ => []
    end.
Proof.
  unfold notebook_with, cell_build_and_push. step.
  rewrite build_and_push_calls_app, cell_setup_runs_no_script.
  destruct (result (cell_setup w)) as [v|]; [|done].
  cbn [app]. rewrite cell_image_eq.
  repeat step. cbn [app].
  rewrite !(build_and_push_calls_other "pygmentize ../docker/Dockerfile"),
    !(build_and_push_calls_other "pygmentize ../scripts/build_and_push.sh")
    by reflexivity.
  rewrite build_and_push_calls_cons.
  match goal with
  | |- ?x ++ ?y = ?x => cut (y = []); [intros ->; apply app_nil_r|]
  end.
  rewrite build_and_push_calls_print.
  rewrite (build_and_push_calls_other "pygmentize ../docker/code/main.py")
    by reflexivity.
  rewrite cell_s3_job_eq, ?trace_time_magic, ?result_time_magic. cbn [fit trace result fst snd app].
  rewrite build_and_push_calls_fit.
  rewrite (build_and_push_calls_other "sudo yum install -y amazon-efs-utils"),
    (build_and_push_calls_other "echo $HOME") by reflexivity.
  rewrite cell_efs_inputs_eq. cbn [trace result fst snd app].
  rewrite !build_and_push_calls_print.
  destruct (FileSystemInput _ _ (efs_train_directory_path p) _);
    [destruct (FileSystemInput _ _ (efs_validation_directory_path p) _)|];
    rewrite ?cell_efs_job_eq, ?trace_time_magic; done.
Qed.

Lemma cell_setup_result w r a g b :
  get_execution_role w = Returned r -> account_id_of r = Returned a ->
  region_name w = Returned g -> new_session w = Returned tt ->
  default_bucket w = Returned b ->
  result (cell_setup w) = Returned (MkNames r a g b).
Proof.
  intros Hr Ha Hg Hs Hb. unfold cell_setup.
  step. rewrite Hr. step. rewrite Ha. step. rewrite Hg. step. rewrite Hs.
  step. rewrite Hb. by repeat step.
Qed.

(** C6 (as amended): when the account id and the region are plain words
    (not empty, made of letters, digits and - _ . /), which the shell
    passes on as they are, the build-and-push script is run once, with
    exactly three positional arguments, the account id, the region and the
    repository name, in that order; and what the script gives back is read
    by nothing: with any other exit statuses for the shell lines the run
    has the same events, those statuses apart, and the same end. *)
Theorem C6_build_and_push_invocation :
  (forall p w r a g b,
      get_execution_role w = Returned r -> account_id_of r = Returned a ->
      region_name w = Returned g -> new_session w = Returned tt ->
      default_bucket w = Returned b ->
      plain_word a = true -> plain_word g = true ->
      build_and_push_calls (trace (notebook_with p w))
      = [[a; g; ecr_repository_name]])
  /\ (forall p w sys,
         without_status <$> trace (notebook_with p (with_system w sys))
         = without_status <$> trace (notebook_with p w)
         /\ result (notebook_with p (with_system w sys))
            = result (notebook_with p w)).
Proof.
  split; [|apply notebook_ignores_exit_status].
  intros p w r a g b Hr Ha Hg Hs Hb Hpa Hpg.
  rewrite build_and_push_calls_notebook_with.
  rewrite (cell_setup_result w r a g b) by done.
  unfold cell_build_and_push.
  cbn [shell trace fst account_id region build_and_push_calls].
  by rewrite shell_words_build_and_push.
Qed.

Lemma C6_witness :
  build_and_push_calls (trace (notebook fair_weather))
  = [["123456789012"; "us-east-1";
      "sagemaker-training-containers/basic-training-container"]].
Proof.
  apply (proj1 C6_build_and_push_invocation notebook_params fair_weather
           "arn:aws:iam::123456789012:role/service-role/SageMakerRole"
           "123456789012" "us-east-1" "sagemaker-us-east-1-123456789012");
    reflexivity.
Defined.

(** C6 as the claim states it, for every account id and region, does not
    hold: the line is put together without quotes, so an account id that
    is not a plain word changes what the script receives.  In the world
    [empty_account] the fifth field of the role is empty, and the script
    is run with two positional arguments, the region and the repository
    name. *)
Lemma C6_counterexample :
  account_id_of "arn:aws:iam:::role/service-role/SageMakerRole" = Returned ""
  /\ build_and_push_calls (trace (notebook empty_account))
     = [["us-east-1"; "sagemaker-training-containers/basic-training-container"]]
  /\ ~ (forall p w r a g b,
           get_execution_role w = Returned r -> account_id_of r = Returned a ->
           region_name w = Returned g -> new_session w = Returned tt ->
           default_bucket w = Returned b ->
           build_and_push_calls (trace (notebook_with p w))
           = [[a; g; ecr_repository_name]]).
Proof.
  split; [reflexivity|]. split; [vm_compute; reflexivity|].
  intros H.
  specialize (H notebook_params empty_account
                "arn:aws:iam:::role/service-role/SageMakerRole" "" "us-east-1"
                "sagemaker-us-east-1-123456789012"
                eq_refl eq_refl eq_refl eq_refl eq_refl).
  vm_compute in H. discriminate.
Qed.

(** ** The shared-filesystem channels *)

Lemma FileSystemInput_returned fsid type path mode :
  mode = "ro" \/ mode = "rw" ->
  FileSystemInput fsid type path mode
  = Returned (MkFileSystemInput fsid type path mode).
Proof. by intros [->| ->]. Qed.

Lemma FileSystemInput_raised fsid type path mode :
  mode <> "ro" -> mode <> "rw" ->
  FileSystemInput fsid type path mode = Raised ValueError.
Proof.
  intros Hro Hrw. unfold FileSystemInput.
  by destruct (String.eqb_spec mode "ro"), (String.eqb_spec mode "rw").
Qed.

Lemma s3_job_reads_no_filesystem w hp uri role :
  Forall (fun job => ~ shared_filesystem_job job)
    (submitted (trace (cell_s3_job w hp uri role))).
Proof.
  rewrite cell_s3_job_eq, ?trace_time_magic, ?result_time_magic. repeat constructor.
  intros (name & c & Hc). cbn [job_inputs] in Hc.
  apply lookup_insert_Some in Hc as [[_ [=]]|[_ Hc]].
  by apply lookup_singleton_Some in Hc as [_ [=]].
Qed.

(** C3: a shared-filesystem channel is constructed only for the access
    modes "ro" and "rw"; for any other access mode the construction raises,
    and it does so before the job is submitted: no job of the run then
    reads a channel from a shared filesystem. *)
Theorem C3_access_mode_restricted fsid type path mode :
  (forall c,
      FileSystemInput fsid type path mode = Returned c ->
      mode = "ro" \/ mode = "rw")
  /\ (mode <> "ro" -> mode <> "rw" ->
      FileSystemInput fsid type path mode = Raised ValueError
      /\ forall p w,
          efs_file_system_access_mode p = mode ->
          result (cell_efs_inputs p) = Raised ValueError
          /\ Forall (fun job => ~ shared_filesystem_job job)
               (submitted (trace (notebook_with p w)))).
Proof.
  split.
  - intros c. unfold FileSystemInput.
    destruct (String.eqb_spec mode "ro"), (String.eqb_spec mode "rw");
      cbn; by auto.
  - intros Hro Hrw. split; [by apply FileSystemInput_raised|].
    intros p w Hp.
    assert (Hin : result (cell_efs_inputs p) = Raised ValueError).
    { rewrite cell_efs_inputs_eq. cbn [result snd].
      by rewrite FileSystemInput_raised by by rewrite Hp. }
    split; [done|].
    apply submitted_notebook_with_Forall.
    intros v train validation _ uri. split.
    + apply s3_job_reads_no_filesystem.
    + by rewrite Hin.
Qed.

Lemma C3_witness :
  FileSystemInput "fs-df51afdb" "EFS" "/LC80010022016230LGN00" "rwx"
  = Raised ValueError
  /\ result (cell_efs_inputs execute_mode_params) = Raised ValueError
  /\ Forall (fun job => ~ shared_filesystem_job job)
       (submitted (trace (notebook_with execute_mode_params fair_weather))).
Proof.
  destruct (proj2 (C3_access_mode_restricted "fs-df51afdb" "EFS"
                     "/LC80010022016230LGN00" "rwx")) as [Hraised Hrun];
    [discriminate|discriminate|].
  split; [exact Hraised|].
  exact (Hrun execute_mode_params fair_weather eq_refl).
Defined.

Lemma efs_job_channels w hp uri role train validation :
  Forall (fun job =>
            job_inputs job
            = {[ "train" := FileSystemChannel train;
                 "validation" := FileSystemChannel validation ]})
    (submitted (trace (cell_efs_job w hp uri role train validation))).
Proof. rewrite cell_efs_job_eq, ?trace_time_magic, ?result_time_magic. by repeat constructor. Qed.

(** C5: no directory path is validated locally.  Whatever the two
    directory-path strings are, with an access mode of "ro" or "rw" both
    channels are constructed and hold the paths unchanged; the cell of the
    filesystem job then submits a job whose channels hold exactly these
    paths, and in a whole run no job reads a shared-filesystem channel
    with any other path. *)
Theorem C5_directory_path_not_validated p :
  efs_file_system_access_mode p = "ro" \/ efs_file_system_access_mode p = "rw" ->
  (forall fsid type path,
      FileSystemInput fsid type path (efs_file_system_access_mode p)
      = Returned (MkFileSystemInput fsid type path (efs_file_system_access_mode p)))
  /\ result (cell_efs_inputs p)
     = Returned
         (MkFileSystemInput (efs_file_system_id p) (efs_file_system_type p)
            (efs_train_directory_path p) (efs_file_system_access_mode p),
          MkFileSystemInput (efs_file_system_id p) (efs_file_system_type p)
            (efs_validation_directory_path p) (efs_file_system_access_mode p))
  /\ (forall w hp uri role,
         job_inputs
         <$> submitted (trace (inputs ← cell_efs_inputs p;
                               cell_efs_job w hp uri role inputs.1 inputs.2))
         = [ {[ "train" := FileSystemChannel
                  (MkFileSystemInput (efs_file_system_id p)
                     (efs_file_system_type p) (efs_train_directory_path p)
                     (efs_file_system_access_mode p));
                "validation" := FileSystemChannel
                  (MkFileSystemInput (efs_file_system_id p)
                     (efs_file_system_type p) (efs_validation_directory_path p)
                     (efs_file_system_access_mode p)) ]} ])
  /\ (forall w,
         Forall (fun job =>
                   forall name c,
                     job_inputs job !! name = Some (FileSystemChannel c) ->
                     (name = "train"
                      /\ directory_path c = efs_train_directory_path p)
                     \/ (name = "validation"
                         /\ directory_path c = efs_validation_directory_path p))
           (submitted (trace (notebook_with p w)))).
Proof.
  intros Hmode.
  assert (Hin : result (cell_efs_inputs p)
                = Returned
                    (MkFileSystemInput (efs_file_system_id p)
                       (efs_file_system_type p) (efs_train_directory_path p)
                       (efs_file_system_access_mode p),
                     MkFileSystemInput (efs_file_system_id p)
                       (efs_file_system_type p)
                       (efs_validation_directory_path p)
                       (efs_file_system_access_mode p))).
  { rewrite cell_efs_inputs_eq. cbn [result snd].
    by rewrite !FileSystemInput_returned. }
  split; [|split; [|split]].
  - intros. by apply FileSystemInput_returned.
  - exact Hin.
  - intros w hp uri role. step. rewrite Hin, submitted_app.
    rewrite cell_efs_inputs_eq, cell_efs_job_eq, ?trace_time_magic. reflexivity.
  - intros w. apply submitted_notebook_with_Forall.
    intros v train validation _ uri. split.
    + eapply Forall_impl; [apply s3_job_reads_no_filesystem|].
      intros job Hjob name c Hc. destruct Hjob. by exists name, c.
    + rewrite Hin. intros [= <- <-].
      eapply Forall_impl; [apply efs_job_channels|].
      intros job -> name c Hc.
      apply lookup_insert_Some in Hc as [[<- [= <-]]|[_ Hc]]; [by left|].
      apply lookup_singleton_Some in Hc as [<- [= <-]]. by right.
Qed.

Lemma C5_witness :
  result (cell_efs_inputs odd_paths_params)
  = Returned
      (MkFileSystemInput "fs-df51afdb" "EFS" "data/../LC80010022016230LGN00//" "rw",
       MkFileSystemInput "fs-df51afdb" "EFS" "" "rw").
Proof.
  apply (proj1 (proj2 (C5_directory_path_not_validated odd_paths_params
                         (or_intror eq_refl)))).
Defined.

(** ** The two job specifications *)

Lemma set_hyperparameters_fresh hp image role count type name sn sg :
  hyperparam_dict (set_hyperparameters hp (Estimator image role count type name sn sg))
  = hp.
Proof. cbn. apply (right_id_L ∅ (∪)). Qed.

(** C4: the hyperparameters set on a job specification are the ones it is
    submitted with.  On a fresh estimator [set_hyperparameters] leaves
    exactly the mapping it was given; every job a run submits carries the
    mapping of the notebook's parameters, each key with its value; for the
    notebook itself both jobs carry hp1 = "value1", hp2 = 300,
    hp3 = 0.001. *)
Theorem C4_hyperparameters_round_trip :
  (forall hp image role count type name sn sg,
      hyperparam_dict
        (set_hyperparameters hp (Estimator image role count type name sn sg))
      = hp)
  /\ (forall p w,
         Forall (fun job => hyperparam_dict (job_estimator job) = hyperparameters p)
           (submitted (trace (notebook_with p w))))
  /\ (fun job => hyperparam_dict (job_estimator job))
     <$> submitted (trace (notebook fair_weather))
     = [ {[ "hp1" := PyStr "value1"; "hp2" := PyInt 300; "hp3" := PyFloat 0.001 ]};
         {[ "hp1" := PyStr "value1"; "hp2" := PyInt 300; "hp3" := PyFloat 0.001 ]} ].
Proof.
  split; [apply set_hyperparameters_fresh|]. split.
  - intros p w. apply submitted_notebook_with_Forall.
    intros v train validation _ uri.
    rewrite cell_s3_job_eq, cell_efs_job_eq, ?trace_time_magic, ?result_time_magic.
    split; [|intros _]; repeat constructor; apply (right_id_L ∅ (∪)).
  - vm_compute. reflexivity.
Qed.

(** C9: when a run submits both jobs, the S3 job first and the filesystem
    job second, their specifications agree on the image reference, the
    role, the instance count 1, the instance type "ml.m5.xlarge", the base
    job name and the hyperparameters hp1 = "value1", hp2 = 300,
    hp3 = 0.001; the first sets neither subnets nor security groups, the
    second sets both, and their input channels differ.  So the second
    estimator is the first with the two network fields set. *)
Theorem C9_job_specifications_agree w j1 j2 :
  submitted (trace (notebook w)) = [j1; j2] ->
  let e1 := job_estimator j1 in
  let e2 := job_estimator j2 in
  e2 = MkEstimator (image_name e1) (role_arn e1) (train_instance_count e1)
         (train_instance_type e1) (base_job_name e1)
         (Some ["subnet-0370146357224ed30"]) (Some ["sg-0c21b70b7f1480a4e"])
         (hyperparam_dict e1)
  /\ train_instance_count e1 = 1%Z
  /\ train_instance_type e1 = "ml.m5.xlarge"
  /\ base_job_name e1 = Some prefix
  /\ hyperparam_dict e1
     = {[ "hp1" := PyStr "value1"; "hp2" := PyInt 300; "hp3" := PyFloat 0.001 ]}
  /\ subnets e1 = None /\ security_group_ids e1 = None
  /\ (exists v,
         result (cell_setup w) = Returned v
         /\ role_arn e1 = role v
         /\ image_name e1
            = account_id v +:+ ".dkr.ecr." +:+ region v +:+ ".amazonaws.com/"
              +:+ ecr_repository_name +:+ ":latest")
  /\ job_inputs j1 <> job_inputs j2.
Proof.
  unfold notebook. rewrite submitted_notebook_with.
  destruct (result (cell_setup w)) as [v|]; [|done].
  rewrite cell_image_eq. cbn [result snd].
  rewrite cell_s3_job_eq, ?trace_time_magic, ?result_time_magic. cbn [fit trace result fst snd submitted app].
  destruct (result (cell_efs_inputs notebook_params)) as [[train validation]|];
    [|done].
  rewrite cell_efs_job_eq, ?trace_time_magic, ?result_time_magic. cbn [fit trace fst submitted].
  intros [= <- <-].
  cbn [job_estimator job_inputs image_name role_arn train_instance_count
       train_instance_type base_job_name subnets security_group_ids
       hyperparam_dict hyperparameters notebook_params].
  rewrite (right_id_L ∅ (∪)).
  split; [done|]. do 6 (split; [reflexivity|]).
  split; [by exists v|].
  intros Heq.
  assert (Ht : ({[ "train" := S3Channel
                     (s3_input "s3://landsat-pds/L8/001/002/LC80010022016230LGN00/"
                        (Some "image/jpeg"));
                   "validation" := S3Channel
                     (s3_input "s3://landsat-pds/L8/001/002/LC80010022016246LGN00/"
                        (Some "image/jpeg")) ]} : gmap string channel)
               !! "train"
               = Some (FileSystemChannel train)).
  { rewrite Heq. apply lookup_insert_eq. }
  by rewrite lookup_insert_eq in Ht.
Qed.

Lemma C9_witness :
  exists j1 j2,
    submitted (trace (notebook fair_weather)) = [j1; j2]
    /\ subnets (job_estimator j1) = None
    /\ subnets (job_estimator j2) = Some ["subnet-0370146357224ed30"]
    /\ image_name (job_estimator j1) = image_name (job_estimator j2)
    /\ hyperparam_dict (job_estimator j1) = hyperparam_dict (job_estimator j2).
Proof.
  eexists _, _. split; [reflexivity|].
  pose proof (C9_job_specifications_agree fair_weather _ _ eq_refl) as H.
  cbv zeta in H. destruct H as (H2 & _ & _ & _ & _ & Hs1 & _).
  rewrite H2. by cbn.
Defined.

(** C10: the train channel and the validation channel of the notebook are
    both built on filesystem "fs-df51afdb", of type "EFS", with access mode
    "ro"; the first has directory "/LC80010022016230LGN00", the second
    "/LC80010022016246LGN00", and they differ in nothing else.  These are
    the channels of the filesystem job when a run submits it. *)
Theorem C10_efs_channels :
  result (cell_efs_inputs notebook_params)
  = Returned
      (MkFileSystemInput "fs-df51afdb" "EFS" "/LC80010022016230LGN00" "ro",
       MkFileSystemInput "fs-df51afdb" "EFS" "/LC80010022016246LGN00" "ro")
  /\ (forall train validation,
         result (cell_efs_inputs notebook_params) = Returned (train, validation) ->
         file_system_id train = "fs-df51afdb"
         /\ file_system_id validation = "fs-df51afdb"
         /\ file_system_type train = "EFS"
         /\ file_system_type validation = "EFS"
         /\ file_system_access_mode train = "ro"
         /\ file_system_access_mode validation = "ro"
         /\ directory_path train = "/LC80010022016230LGN00"
         /\ directory_path validation = "/LC80010022016246LGN00"
         /\ directory_path train <> directory_path validation)
  /\ (forall w j1 j2,
         submitted (trace (notebook w)) = [j1; j2] ->
         job_inputs j2
         = {[ "train" := FileSystemChannel
                (MkFileSystemInput "fs-df51afdb" "EFS" "/LC80010022016230LGN00" "ro");
              "validation" := FileSystemChannel
                (MkFileSystemInput "fs-df51afdb" "EFS" "/LC80010022016246LGN00" "ro") ]}).
Proof.
  split; [reflexivity|]. split.
  - intros train validation [= <- <-]. by repeat split.
  - intros w j1 j2. unfold notebook. rewrite submitted_notebook_with.
    destruct (result (cell_setup w)) as [v|]; [|done].
    rewrite cell_image_eq. cbn [result snd].
    rewrite cell_s3_job_eq, ?trace_time_magic, ?result_time_magic. cbn [fit trace result fst snd submitted app].
      change (result (cell_efs_inputs notebook_params))
      with (Returned
              (MkFileSystemInput "fs-df51afdb" "EFS" "/LC80010022016230LGN00" "ro",
               MkFileSystemInput "fs-df51afdb" "EFS" "/LC80010022016246LGN00" "ro")).
    cbv beta iota. rewrite cell_efs_job_eq, ?trace_time_magic, ?result_time_magic. cbn [fit trace fst snd submitted].
    by intros [= _ <-].
Qed.

Lemma C10_witness :
  exists j1 j2,
    submitted (trace (notebook fair_weather)) = [j1; j2]
    /\ job_inputs j2
       = {[ "train" := FileSystemChannel
              (MkFileSystemInput "fs-df51afdb" "EFS" "/LC80010022016230LGN00" "ro");
            "validation" := FileSystemChannel
              (MkFileSystemInput "fs-df51afdb" "EFS" "/LC80010022016246LGN00" "ro") ]}.
Proof.
  eexists _, _. split; [reflexivity|].
  apply (proj2 (proj2 C10_efs_channels) fair_weather _ _ eq_refl).
Defined.

(** * Further properties of the notebook *)

(** ** Cutting a string and putting it together again *)

Lemma str_split_nonempty sep s : str_split sep s <> [].
Proof.
  intros H. pose proof (str_split_length sep s) as Hlen.
  rewrite H in Hlen. discriminate.
Qed.

Lemma concat_cons_cons sep f g fs :
  String.concat sep (f :: g :: fs) = f +:+ sep +:+ String.concat sep (g :: fs).
Proof. reflexivity. Qed.

Lemma concat_push c sep f fs :
  String.concat sep (String c f :: fs) = String c (String.concat sep (f :: fs)).
Proof. by destruct fs. Qed.

(** X1: [str_split] loses nothing and invents nothing.  Joining the fields
    of a string with the separator gives the string back; no field
    contains the separator; and a non-empty list of separator-free fields,
    joined and cut again, is the same list. *)
Theorem str_split_concat_round_trip sep :
  (forall s, String.concat (String sep "") (str_split sep s) = s)
  /\ (forall s, Forall (fun f => str_count sep f = 0) (str_split sep s))
  /\ (forall f fs,
         Forall (fun f => str_count sep f = 0) (f :: fs) ->
         str_split sep (String.concat (String sep "") (f :: fs)) = f :: fs).
Proof.
  split; [|split].
  - induction s as [|c s IH]; [done|].
    cbn [str_split].
    destruct (Ascii.eqb_spec c sep) as [->|Hc].
    + pose proof (str_split_nonempty sep s) as Hne.
      destruct (str_split sep s) as [|g gs]; [done|].
      rewrite concat_cons_cons, IH. reflexivity.
    + pose proof (str_split_nonempty sep s) as Hne.
      destruct (str_split sep s) as [|g gs]; [done|].
      by rewrite concat_push, IH.
  - induction s as [|c s IH]; [by repeat constructor|].
    cbn [str_split].
    destruct (Ascii.eqb_spec c sep) as [->|Hc]; [by constructor|].
    pose proof (str_split_nonempty sep s) as Hne.
    destruct (str_split sep s) as [|g gs]; [done|].
    inversion IH as [|? ? Hg Hgs]; subst.
    constructor; [|done].
    cbn [str_count]. destruct (Ascii.eqb_spec c sep); [done|]. by rewrite Hg.
  - intros f fs. revert f.
    induction fs as [|g fs IH]; intros f Hall.
    + inversion Hall; subst. by apply str_split_no_sep.
    + inversion Hall as [|? ? Hf Hrest]; subst.
      rewrite concat_cons_cons, str_split_app by done.
      by rewrite IH.
Qed.

Lemma str_split_concat_round_trip_witness :
  str_split ":" (String.concat ":" ["arn"; "aws"; "iam"; ""; "123456789012"; "role/R"])
  = ["arn"; "aws"; "iam"; ""; "123456789012"; "role/R"].
Proof.
  apply (proj2 (proj2 (str_split_concat_round_trip ":"))).
  by repeat constructor.
Defined.

(** ** When the first cell fails *)

Lemma cell_setup_raised_calls_only w e :
  result (cell_setup w) = Raised e ->
  Forall is_call (trace (cell_setup w)) /\ length (trace (cell_setup w)) <= 4.
Proof.
  unfold cell_setup. step.
  destruct (get_execution_role w) as [r|]; [|by repeat constructor]. step.
  destruct (account_id_of r) as [a|]; [|by repeat constructor]. step.
  destruct (region_name w) as [g|]; [|by repeat constructor]. step.
  destruct (new_session w); [|by repeat constructor]. step.
  destruct (default_bucket w) as [b|]; [|by repeat constructor].
  by repeat step.
Qed.

(** X2: when the first cell ends with an exception (the role, the region,
    the session or the bucket cannot be had, or the role has no fifth
    field), the whole run is the failed part of that cell: it ends with the
    same exception, it consists of at most four calls to collaborators,
    and so nothing was printed, no shell line ran and no job was
    submitted. *)
Theorem failed_setup_ends_the_run p w e :
  result (cell_setup w) = Raised e ->
  notebook_with p w = (trace (cell_setup w), Raised e)
  /\ Forall is_call (trace (notebook_with p w))
  /\ length (trace (notebook_with p w)) <= 4.
Proof.
  intros He.
  assert (Hrun : notebook_with p w = (trace (cell_setup w), Raised e)).
  { unfold notebook_with. apply M_eq; step; rewrite He; [apply app_nil_r|done]. }
  split; [done|]. rewrite Hrun. by apply cell_setup_raised_calls_only in He.
Qed.

Lemma failed_setup_ends_the_run_witness :
  notebook no_bucket
  = ([EvCall "get_execution_role" (Returned tt);
      EvCall "boto3.Session().region_name" (Returned tt);
      EvCall "sagemaker.session.Session" (Returned tt);
      EvCall "sagemaker_session.default_bucket"
        (Raised (ServiceError "no default bucket"))],
     Raised (ServiceError "no default bucket")).
Proof.
  apply (proj1 (failed_setup_ends_the_run notebook_params no_bucket
                  (ServiceError "no default bucket") eq_refl)).
Defined.

(** ** The order of the jobs *)

(** X3: a run submits at most two jobs.  When it submits two, the first is
    the S3 job, which reads no shared filesystem, and the second is the
    filesystem job.  The second does not wait for the first to be
    accepted: once the first cell has returned and both channels are
    built, both jobs are submitted, whatever the training service
    answered to the first. *)
Theorem jobs_in_order p w :
  length (submitted (trace (notebook_with p w))) <= 2
  /\ (forall j1 j2 rest,
         submitted (trace (notebook_with p w)) = j1 :: j2 :: rest ->
         rest = [] /\ ~ shared_filesystem_job j1 /\ shared_filesystem_job j2)
  /\ (forall v inputs,
         result (cell_setup w) = Returned v ->
         result (cell_efs_inputs p) = Returned inputs ->
         exists j1 j2, submitted (trace (notebook_with p w)) = [j1; j2]).
Proof.
  rewrite submitted_notebook_with.
  destruct (result (cell_setup w)) as [v|];
    [|by split; [cbn; lia|split; [|intros ? ? [=]]]].
  rewrite cell_image_eq. cbn [result snd].
  pose proof (s3_job_reads_no_filesystem w (hyperparameters p)
                (account_id v +:+ ".dkr.ecr." +:+ region v +:+ ".amazonaws.com/"
                 +:+ ecr_repository_name +:+ ":latest") (role v)) as Hs3.
  rewrite cell_s3_job_eq, trace_time_magic in Hs3.
  rewrite cell_s3_job_eq, trace_time_magic, result_time_magic.
  cbn [fit trace result fst snd submitted app] in Hs3 |- *.
  apply Forall_cons in Hs3 as [Hs3 _].
  destruct (result (cell_efs_inputs p)) as [[train validation]|];
    [|by split; [cbn [app length]; lia|split; [|intros ? ? _ [=]]]].
  rewrite cell_efs_job_eq, trace_time_magic. cbn [fit trace fst snd submitted].
  split; [cbn [app length]; lia|]. split.
  - intros j1 j2 rest [= <- <- <-].
    repeat split; try done.
    exists "train", train. apply lookup_insert_eq.
  - intros _ _ _ _. by eexists _, _.
Qed.

Lemma jobs_in_order_witness :
  exists j1 j2,
    submitted (trace (notebook service_down)) = [j1; j2]
    /\ create_training_job service_down j1
       = Raised (ServiceError "training job failed")
    /\ shared_filesystem_job j2.
Proof.
  eexists _, _. split; [reflexivity|].
  destruct (proj1 (proj2 (jobs_in_order notebook_params service_down))
              _ _ _ eq_refl) as (_ & _ & H2).
  by split.
Defined.

(** ** The shell lines of a run *)





(** ** An empty account id *)




(** ** The script runs before any job *)

Lemma notebook_with_starts p w v :
  result (cell_setup w) = Returned v ->
  exists status rest,
    trace (notebook_with p w)
    = (trace (cell_setup w)
       ++ [EvSystem "pygmentize ../docker/Dockerfile"
             (system w "pygmentize ../docker/Dockerfile");
           EvSystem "pygmentize ../scripts/build_and_push.sh"
             (system w "pygmentize ../scripts/build_and_push.sh");
           EvSystem (build_and_push_sh +:+ " " +:+ account_id v +:+ " "
                     +:+ region v +:+ " " +:+ ecr_repository_name) status])
      ++ rest.
Proof.
  intros Hv. do 2 eexists.
  unfold notebook_with, cell_build_and_push. step. rewrite Hv.
  repeat step. rewrite <- app_assoc. cbn [app]. reflexivity.
Qed.

Lemma submitted_none_In t job r : submitted t = [] -> ~ In (EvFit job r) t.
Proof.
  induction t as [|ev t IH]; [by intros _ []|].
  destruct ev; cbn [submitted]; try discriminate;
    intros Ht [Hin|Hin]; try discriminate; by apply IH.
Qed.

(** X6: no job is submitted before the build-and-push line has been run.
    In a run whose first cell returned an account id and a region that are
    plain words, wherever a submission stands in the trace, the shell line
    of the script with its three arguments (account id, region, repository
    name) stands before it. *)
Theorem build_and_push_precedes_jobs p w v t1 job r t2 :
  result (cell_setup w) = Returned v ->
  plain_word (account_id v) = true -> plain_word (region v) = true ->
  trace (notebook_with p w) = t1 ++ EvFit job r :: t2 ->
  exists cmdline status,
    In (EvSystem cmdline status) t1
    /\ shell_words cmdline
       = [build_and_push_sh; account_id v; region v; ecr_repository_name].
Proof.
  intros Hv Ha Hg Ht.
  destruct (notebook_with_starts p w v Hv) as (status & rest & Hpre).
  eexists _, status. split; [|by apply shell_words_build_and_push].
  rewrite Hpre in Ht.
  apply app_eq_app in Ht as [l [[Hl Hrest]|[-> Hl]]].
  - destruct l as [|ev l].
    + rewrite app_nil_r in Hl. subst t1.
      apply in_or_app. right. cbn. auto.
    + injection Hrest as <- _. exfalso.
      apply (submitted_none_In (t1 ++ EvFit job r :: l) job r).
      * rewrite <- Hl, submitted_app, cell_setup_submits_nothing.
        reflexivity.
      * apply in_or_app. right. by left.
  - apply in_or_app. left. apply in_or_app. right. cbn. auto.
Qed.

Lemma build_and_push_precedes_jobs_witness :
  exists cmdline status,
    In (EvSystem cmdline status) (take 13 (trace (notebook failed_push)))
    /\ shell_words cmdline
       = [build_and_push_sh; "123456789012"; "us-east-1"; ecr_repository_name].
Proof.
  eapply (build_and_push_precedes_jobs notebook_params failed_push
            (MkNames "arn:aws:iam::123456789012:role/service-role/SageMakerRole"
               "123456789012" "us-east-1" "sagemaker-us-east-1-123456789012")
            (take 13 (trace (notebook failed_push))) _ _
            (drop 14 (trace (notebook failed_push))));
    [reflexivity|reflexivity|reflexivity|].
  vm_compute. reflexivity.
Defined.

(** ** A run that returns *)

(** X7: a run returns exactly when its first cell returns and both
    shared-filesystem channels are built; what the training service
    answers does not matter, because the [%%time] magic of the two job
    cells catches a refusal.  A run that returns has submitted two
    jobs. *)
Theorem returns_iff_setup_and_channels p w :
  (result (notebook_with p w) = Returned tt
   <-> (exists v, result (cell_setup w) = Returned v)
       /\ (exists inputs, result (cell_efs_inputs p) = Returned inputs))
  /\ (result (notebook_with p w) = Returned tt ->
      length (submitted (trace (notebook_with p w))) = 2).
Proof.
  assert (Hiff : result (notebook_with p w) = Returned tt
                 <-> (exists v, result (cell_setup w) = Returned v)
                     /\ (exists inputs,
                            result (cell_efs_inputs p) = Returned inputs)).
  { split.
    - unfold notebook_with, cell_build_and_push. step.
      destruct (result (cell_setup w)) as [v|]; [|done].
      repeat step. rewrite cell_image_eq. cbn [result snd]. repeat step.
      rewrite cell_s3_job_eq, result_time_magic. repeat step.
      destruct (result (cell_efs_inputs p)) as [inputs|]; [|done].
      intros _. split; eauto.
    - intros [[v Hv] [inputs Hin]].
      by apply (notebook_with_both_jobs p w v inputs). }
  split; [exact Hiff|].
  intros [[v Hv] [inputs Hin]]%Hiff.
  by apply (notebook_with_both_jobs p w v inputs).
Qed.

Lemma returns_iff_setup_and_channels_witness :
  result (notebook service_down) = Returned tt.
Proof.
  apply (proj1 (returns_iff_setup_and_channels notebook_params service_down)).
  split; eexists; reflexivity.
Defined.
